(** * Demand normalization (demand_normalization.py, process_demand_sheet)

    A shallow embedding of [process_demand_sheet]: the sheet search, the
    supply dictionary built from the DATA sheet, the over-supply check
    (Step 1), the consolidation pass (Step 2), the rounding pass (Step 3),
    the restoration pass (Step 4), the file names and the sheets of the
    output workbook, together with the exceptions that the enclosing
    [try ... except Exception] turns into a [None] result.

    Numbers are modelled twice. The table-level results (which rows are
    preserved, the order of the scan, the shape of the output) are stated
    on cells holding exact rationals ([Q]); they depend on comparisons and
    on the order of the updates only. The arithmetic of Steps 2 and 3
    themselves, Python's [float] addition and division, is modelled on
    binary64 values ([PrimFloat.float]) in the part named "Steps 2 and 3 in
    binary64"; what is claimed about sums and rounded values is stated
    there. *)

From Stdlib Require Import PrimFloat.
From Stdlib Require SpecFloat FloatOps FloatAxioms Uint63.
From Stdlib Require Import QArith Qround Lqa Lia Ascii DecimalString DecimalNat.
From stdpp Require Import gmap strings list fin_maps.

Open Scope Q_scope.

(** ** Cells of a DataFrame *)

(** What [pd.read_excel] can hand back for one cell of a period column:
    a number, a missing value (NaN/None, [pd.isna] is true), or text. *)
Inductive cell : Type :=
  | Num (v : Q)
  | NaN
  | Text (s : string).

(** The first column holds the item code; [str(item_code)] is what the
    script compares with the keys of the supply dictionary. *)
Inductive item_code : Type :=
  | CodeStr (s : string)
  | CodeInt (z : Z)
  | CodeNaN.

Definition py_str (c : item_code) : string :=
  match c with
  | CodeStr s => s
  | CodeInt z => NilZero.string_of_int (Z.to_int z)
  | CodeNaN => "nan"%string
  end.

(** Strict comparison on floats, as a boolean. *)
Definition Qltb (x y : Q) : bool :=
  (Qnum x * QDen y <? Qnum y * QDen x)%Z.

(** ** A runnable [float] for text cells *)

(** The decimal-literal fragment of Python's [float(str)], used to run the
    model on concrete tables: an optional sign, digits, at most one point,
    at least one digit. Anything else counts as [ValueError]. *)
Definition digit_of (a : ascii) : option Z :=
  let n := nat_of_ascii a in
  if (48 <=? n)%nat && (n <=? 57)%nat then Some (Z.of_nat (n - 48)) else None.

Fixpoint float_digits (s : string) (num : Z) (den : positive)
    (after_point seen_digit : bool) : option Q :=
  match s with
  | EmptyString => if seen_digit then Some (num # den) else None
  | String a s' =>
      if Ascii.eqb a "."%char then
        if after_point then None
        else float_digits s' num den true seen_digit
      else
        match digit_of a with
        | Some dgt =>
            float_digits s' (10 * num + dgt)
              (if after_point then (10 * den)%positive else den)
              after_point true
        | None => None
        end
  end.

Definition float_decimal (s : string) : option Q :=
  match s with
  | String "-"%char s' => Qopp <$> float_digits s' 0 1 false false
  | String "+"%char s' => float_digits s' 0 1 false false
  | _ => float_digits s 0 1 false false
  end.

(** ** Exceptions *)

(** The exceptions the numeric core can raise: reading the unassigned
    [items_to_keep_original], adding text in the raw total, and
    [int(np.ceil(x))] on an infinite or NaN [x]. All are caught by the outer
    handler of [process_demand_sheet], which prints the message and returns
    [None]. *)
Inductive exn : Type :=
  | UnboundLocalError
  | TypeError
  | OverflowError
  | ValueError.

Inductive result (A : Type) : Type :=
  | Ok (a : A)
  | Raise (e : exn).
Arguments Ok {A} a.
Arguments Raise {A} e.

#[global] Instance result_ret : MRet result := fun A a => Ok a.

#[global] Instance result_bind : MBind result := fun A B k r =>
  match r with
  | Ok a => k a
  | Raise e => Raise e
  end.

Section Normalizer.

(** [float(s)] on a text cell: [Some v] when the text is a finite numeric
    literal with value [v], [None] when [float] raises [ValueError]. Every
    result below holds for whatever the builtin does on text. *)
Variable float_str : string -> option Q.

(** The coercion block that precedes each test in Steps 2 and 3:
<<
    try:
        if pd.isna(x): x = 0
        else: x = float(x)
    except (ValueError, TypeError): x = 0
>> *)
Definition to_number (c : cell) : Q :=
  match c with
  | Num v => v
  | NaN => 0
  | Text s => match float_str s with
              | Some v => v
              | None => 0
              end
  end.

(** ** Step 2: consolidation of one row *)

(** The chained comparison [0 < current_value < 30]. *)
Definition small (current_value : Q) : bool :=
  Qltb 0 current_value && Qltb current_value 30.

(** Body of [for col_idx in range(len(numeric_cols) - 1)], on the cells of
    the row being processed. The two lookups are in range for every index
    the loop produces ([consolidate_cell_in_range]), so the [None] branches,
    where [.at] would raise [KeyError], are never taken. *)
Definition consolidate_cell (row : list cell) (col_idx : nat) : list cell :=
  match row !! col_idx with
  | None => row
  | Some current =>
      let current_value := to_number current in
      if small current_value then
        match row !! S col_idx with
        | None => row
        | Some next =>
            let next_value := to_number next in
            <[col_idx := Num 0]>
              (<[S col_idx := Num (next_value + current_value)]> row)
        end
      else row
  end.

Definition consolidate_row (row : list cell) : list cell :=
  foldl consolidate_cell row (seq 0 (length row - 1)).

(** ** Step 3: rounding of one row *)

(** [int(np.ceil(val / 10.0)) * 10] *)
Definition round_up_10 (val : Q) : Z := (Qceiling (val / 10) * 10)%Z.

Definition round_cell (c : cell) : cell :=
  let val := to_number c in
  if Qltb 0 val then Num (inject_Z (round_up_10 val)) else c.

Definition round_row (row : list cell) : list cell := map round_cell row.

(** ** The DEMAND table *)

(** One row of the DEMAND sheet: the item code (column A), the label
    (column B) and the cells of [numeric_cols] (column C onwards). Every row
    of a DataFrame has one cell per column, so [length (periods r)] is
    [len(numeric_cols)] for each row [r]. *)
Record DemandRow : Type := mkRow {
  item_id : item_code;
  label : cell;
  periods : list cell
}.

Abbreviation DemandTable := (list DemandRow).

Definition set_periods (r : DemandRow) (ps : list cell) : DemandRow :=
  {| item_id := item_id r; label := label r; periods := ps |}.

(** ** Step 1: rows whose raw demand exceeds the supply *)

(** [original_df.iloc[row_idx, 2:].sum()]: pandas skips missing values and
    adds the others with [+]. A text cell makes the addition (or, when the
    row holds nothing but one text, the comparison with [available_qty] that
    follows) raise [TypeError]; no [float(...)] conversion is attempted. *)
Fixpoint series_sum (cells : list cell) : result Q :=
  match cells with
  | [] => Ok 0
  | Num v :: rest => total ← series_sum rest; Ok (v + total)
  | NaN :: rest => series_sum rest
  | Text _ :: _ => Raise TypeError
  end.

(** Body of the Step 1 loop for one row, threading
    [items_to_keep_original]. *)
Definition check_row (material_qty_dict : gmap string Q)
    (items_to_keep_original : list string) (r : DemandRow)
    : result (list string) :=
  let item_code_str := py_str (item_id r) in
  match material_qty_dict !! item_code_str with
  | Some available_qty =>
      original_demand ← series_sum (periods r);
      if Qltb available_qty original_demand
      then Ok (items_to_keep_original ++ [item_code_str])
      else Ok items_to_keep_original
  | None => Ok items_to_keep_original
  end.

Fixpoint check_rows (material_qty_dict : gmap string Q)
    (items_to_keep_original : list string) (rows : DemandTable)
    : result (list string) :=
  match rows with
  | [] => Ok items_to_keep_original
  | r :: rest =>
      keep ← check_row material_qty_dict items_to_keep_original r;
      check_rows material_qty_dict keep rest
  end.

(** Step 1 as a whole. The local variable [items_to_keep_original] is
    assigned only inside [if material_qty_dict:]; [None] is the unbound
    variable left behind when the dictionary is empty. *)
Definition step1 (material_qty_dict : gmap string Q) (df : DemandTable)
    : result (option (list string)) :=
  if decide (material_qty_dict = ∅) then Ok None
  else keep ← check_rows material_qty_dict [] df; Ok (Some keep).

(** Reading a local variable: [UnboundLocalError] (a [NameError]) when it
    was never assigned. *)
Definition read_local {A : Type} (v : option A) : result A :=
  match v with
  | Some a => Ok a
  | None => Raise UnboundLocalError
  end.

(** [item_code in items_to_keep_original] *)
Definition kept (items_to_keep_original : list string) (r : DemandRow) : bool :=
  bool_decide (py_str (item_id r) ∈ items_to_keep_original).

(** ** Steps 2 to 4 over the table *)

Definition step2 (keep : list string) (df : DemandTable) : DemandTable :=
  map (fun r => if kept keep r then r
                else set_periods r (consolidate_row (periods r))) df.

Definition step3 (keep : list string) (df : DemandTable) : DemandTable :=
  map (fun r => if kept keep r then r
                else set_periods r (round_row (periods r))) df.

(** Step 4 copies every column of a kept row back from [original_df]. *)
Definition step4 (keep : list string) (original_df processed_df : DemandTable)
    : DemandTable :=
  zip_with (fun o p => if kept keep p then o else p) original_df processed_df.

(** Lines 98-227: the numeric core, from the two copies of the DEMAND
    DataFrame to the final [processed_df]. *)
Definition normalize (material_qty_dict : gmap string Q) (df_demand : DemandTable)
    : result DemandTable :=
  let processed_df := df_demand in
  let original_df := df_demand in
  bound ← step1 material_qty_dict processed_df;
  items_to_keep_original ← read_local bound;
  let processed_df := step2 items_to_keep_original processed_df in
  let processed_df := step3 items_to_keep_original processed_df in
  Ok (step4 items_to_keep_original original_df processed_df).

(** ** The DATA sheet and the workbook *)

(** The two columns of the DATA sheet the script looks for, each present or
    not: ['Material'] and ['Still to be delivered (qty)'] (numbers or
    missing values). In a DataFrame both columns have one entry per row. *)
Record DataSheet : Type := mkData {
  Material : option (list item_code);
  Still_to_be_delivered : option (list (option Q))
}.

(** [df_data.groupby('Material')[...].sum().to_dict()] after
    [astype(str)]: one key per code, missing quantities count as 0. *)
Definition groupby_sum (records : list (string * option Q)) : gmap string Q :=
  foldl (fun d rec =>
           <[rec.1 := default 0 (d !! rec.1) + default 0 rec.2]> d)
        ∅ records.

(** Lines 55-80. *)
Definition build_material_qty_dict (data : option DataSheet) : gmap string Q :=
  match data with
  | Some df_data =>
      match Material df_data, Still_to_be_delivered df_data with
      | Some codes, Some qty => groupby_sum (zip (map py_str codes) qty)
      | _, _ => ∅
      end
  | None => ∅
  end.

(** The sheets found by the case-insensitive search for ["demand"] and
    ["data"]. *)
Record Workbook : Type := mkBook {
  demand_sheet : option DemandTable;
  data_sheet : option DataSheet
}.

(** [process_demand_sheet] up to the point where [processed_df] is handed to
    the writer: [Some processed_df] when an output file is produced from it,
    [None] when the function returns [None] (no DEMAND sheet, or an
    exception caught by the outer handler). *)
Definition process_demand_sheet (wb : Workbook) : option DemandTable :=
  match demand_sheet wb with
  | None => None
  | Some df_demand =>
      match normalize (build_material_qty_dict (data_sheet wb)) df_demand with
      | Ok processed_df => Some processed_df
      | Raise _ => None
      end
  end.

(** ** Derived notions used in the statements *)

(** The walk of Step 2 written on the list itself: [current] is the cell
    under the cursor (possibly just filled from the left), [rest] the cells
    to its right. *)
Fixpoint scan_from (current : cell) (rest : list cell) : list cell :=
  match rest with
  | [] => [current]
  | next :: rest' =>
      if small (to_number current)
      then Num 0 :: scan_from (Num (to_number next + to_number current)) rest'
      else current :: scan_from next rest'
  end.

(** The row's own raw total exceeds the supply recorded for its code. *)
Definition exceeds_supply (material_qty_dict : gmap string Q) (r : DemandRow) : Prop :=
  ∃ available_qty original_demand,
    material_qty_dict !! py_str (item_id r) = Some available_qty ∧
    series_sum (periods r) = Ok original_demand ∧
    available_qty < original_demand.

(** Some row of the table carrying the code [s] exceeds its supply. *)
Definition item_over_supply (material_qty_dict : gmap string Q)
    (df : DemandTable) (s : string) : Prop :=
  ∃ r, r ∈ df ∧ py_str (item_id r) = s ∧ exceeds_supply material_qty_dict r.

(** Steps 2 and 3 applied to one row. *)
Definition normalize_row (r : DemandRow) : DemandRow :=
  set_periods r (round_row (consolidate_row (periods r))).

(** ** Sample workbooks *)

(** Scenario 1 of the requirements: one item without supply entry. *)
Definition scenario1_row : DemandRow :=
  mkRow (CodeStr "A") (Text "bolt") [Num 5; Num 0; Num 40].

Definition other_item_data : DataSheet :=
  mkData (Some [CodeStr "B"]) (Some [Some 100]).

(** Scenario 3: supply 50 for item A, demand 30 + 40. *)
Definition scenario3_row : DemandRow :=
  mkRow (CodeStr "A") (Text "bolt") [Num 30; Num 40].

Definition supply_A_50 : DataSheet :=
  mkData (Some [CodeStr "A"]) (Some [Some 50]).

(** Scenario 3 next to an item without supply entry. *)
Definition scenario3_table : DemandTable :=
  [scenario3_row; mkRow (CodeStr "C") (Text "nut") [Num 5; Num 0]].

Definition scenario3_output : DemandTable :=
  [scenario3_row; mkRow (CodeStr "C") (Text "nut") [Num 0; Num 10]].



(** A row with a text cell among its periods. *)
Definition text_row : DemandRow :=
  mkRow (CodeStr "A") (Text "bolt") [Text "abc"; Num 40].

(** A row that needs both passes. *)
Definition mixed_row : DemandRow :=
  mkRow (CodeInt 1001) NaN [Num 40; Num 25; Num 5].

(** ** Locating the sheets (lines 27-35) *)

(** [str.lower()] on the ASCII letters. Sheet names are kept as UTF-8
    bytes; no character outside ASCII lowers to a letter of ["demand"] or
    ["data"], so comparing the lowered bytes decides both tests of the
    loop. *)
Definition lower_char (a : ascii) : ascii :=
  let n := nat_of_ascii a in
  if (65 <=? n)%nat && (n <=? 90)%nat then ascii_of_nat (n + 32) else a.

Fixpoint lower (s : string) : string :=
  match s with
  | EmptyString => EmptyString
  | String a s' => String (lower_char a) (lower s')
  end.

(** Body of [for sheet_name in sheet_names], on the pair
    [(demand_sheet_name, data_sheet_name)]. *)
Definition find_sheet_step (found : option string * option string)
    (sheet_name : string) : option string * option string :=
  if decide (lower sheet_name = "demand"%string) then (Some sheet_name, found.2)
  else if decide (lower sheet_name = "data"%string) then (found.1, Some sheet_name)
  else found.

Definition find_sheets (sheet_names : list string) : option string * option string :=
  foldl find_sheet_step (None, None) sheet_names.

(** ** Names of the output and temporary files (lines 229-239) *)

(** [p.rfind(c)] for the characters selected by [P]: position of the last
    one, [-1] when there is none. *)
Fixpoint rfind (P : ascii → bool) (p : list ascii) : Z :=
  match p with
  | [] => (-1)%Z
  | c :: p' =>
      let i := rfind P p' in
      if (0 <=? i)%Z then (1 + i)%Z else if P c then 0%Z else (-1)%Z
  end.

(** Path separators: [/] on POSIX; backslash and the alternative [/] on
    Windows. *)
Definition is_sep (windows : bool) (c : ascii) : bool :=
  Ascii.eqb c "/"%char || (windows && Ascii.eqb c (ascii_of_nat 92)).

Definition is_dot (c : ascii) : bool := Ascii.eqb c "."%char.

(** [os.path.splitext(p)]: the extension starts at the last dot, provided
    that dot comes after the last separator and some character between the
    separator and the dot is not a dot. [rfind (is_sep windows)] is the
    maximum of the two [rfind] calls of the library code. *)
Definition splitext (windows : bool) (p : list ascii) : list ascii * list ascii :=
  let sepIndex := rfind (is_sep windows) p in
  let dotIndex := rfind is_dot p in
  if (sepIndex <? dotIndex)%Z then
    let filenameIndex := (sepIndex + 1)%Z in
    if existsb (fun c => negb (is_dot c))
         (take (Z.to_nat (dotIndex - filenameIndex))
               (drop (Z.to_nat filenameIndex) p))
    then (take (Z.to_nat dotIndex) p, drop (Z.to_nat dotIndex) p)
    else (p, [])
  else (p, []).

(** An integer inside an f-string. *)
Definition decimal (n : nat) : list ascii :=
  String.list_ascii_of_string (NilZero.string_of_uint (Nat.to_uint n)).

(** [os.path.splitext(input_file)[0] + f"_output_{random_num}.xlsx"] *)
Definition output_file (windows : bool) (input_file : list ascii)
    (random_num : nat) : list ascii :=
  (splitext windows input_file).1
    ++ String.list_ascii_of_string "_output_" ++ decimal random_num
    ++ String.list_ascii_of_string ".xlsx".

(** [os.path.splitext(output_file)[0] + "_temp_demand.xlsx"] *)
Definition temp_demand_file (windows : bool) (output : list ascii) : list ascii :=
  (splitext windows output).1 ++ String.list_ascii_of_string "_temp_demand.xlsx".

(** ** The sheets written to the output file (lines 254-300) *)

(** [d[k] = v] on a Python dictionary, which keeps insertion order: an
    existing key keeps its place, a new key goes last. *)
Fixpoint dict_set {A : Type} (k : string) (v : A) (d : list (string * A))
    : list (string * A) :=
  match d with
  | [] => [(k, v)]
  | kv :: d' => if decide (kv.1 = k) then (k, v) :: d' else kv :: dict_set k v d'
  end.

(** [pd.read_excel(file, sheet_name=name)]: the first sheet of that name. *)
Fixpoint read_excel {A : Type} (book : list (string * A)) (name : string) : option A :=
  match book with
  | [] => None
  | kv :: book' => if decide (kv.1 = name) then Some kv.2 else read_excel book' name
  end.

(** Lines 254-268: [all_dfs] gets every sheet of the copied workbook except
    the DEMAND sheet, then the processed DEMAND sheet; the writer emits the
    items of [all_dfs] in order. A workbook is the list of its sheets, each
    with the DataFrame pandas reads from it. *)
Definition collect_step {A : Type} (book : list (string * A))
    (demand_sheet_name : string) (all_dfs : list (string * A)) (sheet : string)
    : list (string * A) :=
  if decide (sheet = demand_sheet_name) then all_dfs
  else match read_excel book sheet with
       | Some df => dict_set sheet df all_dfs
       | None => all_dfs
       end.

Definition rewrite_workbook {A : Type} (book : list (string * A))
    (demand_sheet_name : string) (demand_df : A) : list (string * A) :=
  let all_dfs := foldl (collect_step book demand_sheet_name) [] book.*1 in
  dict_set demand_sheet_name demand_df all_dfs.

(** Lines 282-300, the fallback: the first sheet named [demand_sheet_name]
    is removed from the copied workbook and the processed sheet is appended
    under that name. *)
Fixpoint remove_sheet {A : Type} (name : string) (book : list (string * A))
    : list (string * A) :=
  match book with
  | [] => []
  | kv :: book' => if decide (kv.1 = name) then book' else kv :: remove_sheet name book'
  end.

Definition append_workbook {A : Type} (book : list (string * A))
    (demand_sheet_name : string) (demand_df : A) : list (string * A) :=
  remove_sheet demand_sheet_name book ++ [(demand_sheet_name, demand_df)].

(** ** Steps 2 and 3 in binary64 *)

(** [float(s)] on a text cell, as the binary64 value Python returns ([nan]
    and [inf] included); [None] when it raises [ValueError]. *)
Variable float_text : string -> option float.



















(** ** Consolidation: the loop and the walk agree *)

Lemma Qltb_spec (x y : Q) : Qltb x y = true <-> x < y.
Proof. unfold Qltb, Qlt. apply Z.ltb_lt. Qed.

Lemma Qltb_false (x y : Q) : Qltb x y = false <-> y <= x.
Proof. unfold Qltb, Qle. rewrite Z.ltb_ge. reflexivity. Qed.

Lemma consolidate_cell_in_range (row : list cell) (col_idx : nat) :
  (col_idx < length row - 1)%nat →
  is_Some (row !! col_idx) ∧ is_Some (row !! S col_idx).
Proof.
  intros H. split; apply lookup_lt_is_Some; lia.
Qed.

Lemma foldl_consolidate_scan (pre : list cell) (c : cell) (rest : list cell) :
  foldl consolidate_cell (pre ++ c :: rest) (seq (length pre) (length rest))
  = pre ++ scan_from c rest.
Proof.
  revert pre c. induction rest as [|n rest IH]; intros pre c.
  - reflexivity.
  - cbn [length seq foldl scan_from].
    unfold consolidate_cell at 2.
    rewrite list_lookup_middle by reflexivity.
    destruct (small (to_number c)) eqn:Hs.
    + replace ((pre ++ c :: n :: rest) !! S (length pre)) with (Some n).
      2:{ rewrite lookup_app_r by lia.
          replace (S (length pre) - length pre)%nat with 1%nat by lia.
          reflexivity. }
      rewrite !insert_app_r_alt by (rewrite ?length_insert; lia).
      replace (S (length pre) - length pre)%nat with 1%nat by lia.
      rewrite Nat.sub_diag. cbn [list_insert insert].
      specialize (IH (pre ++ [Num 0]) (Num (to_number n + to_number c))).
      rewrite length_app, Nat.add_1_r, <- app_assoc in IH.
      cbn [app] in IH. rewrite IH.
      rewrite <- app_assoc. reflexivity.
    + specialize (IH (pre ++ [c]) n).
      rewrite length_app, Nat.add_1_r, <- app_assoc in IH.
      cbn [app] in IH. rewrite IH.
      rewrite <- app_assoc. reflexivity.
Qed.

Lemma consolidate_row_scan (c : cell) (rest : list cell) :
  consolidate_row (c :: rest) = scan_from c rest.
Proof.
  unfold consolidate_row. cbn [length]. rewrite Nat.sub_1_r. cbn [Nat.pred].
  apply (foldl_consolidate_scan [] c rest).
Qed.


Lemma small_false (v : Q) : small v = false ↔ v <= 0 ∨ 30 <= v.
Proof.
  unfold small. rewrite andb_false_iff, !Qltb_false. reflexivity.
Qed.

Lemma scan_from_length (c : cell) (rest : list cell) :
  length (scan_from c rest) = S (length rest).
Proof.
  revert c. induction rest as [|n rest IH]; intros c; cbn [scan_from].
  - reflexivity.
  - destruct (small (to_number c)); cbn [length]; rewrite IH; reflexivity.
Qed.

Lemma consolidate_row_length (row : list cell) :
  length (consolidate_row row) = length row.
Proof.
  destruct row as [|c rest]; [reflexivity|].
  rewrite consolidate_row_scan. apply scan_from_length.
Qed.

(** Left of the last column, the walk leaves no value strictly between 0
    and 30. *)
Lemma scan_from_not_small (c : cell) (rest : list cell) (j : nat) (x : cell) :
  scan_from c rest !! j = Some x →
  (j < length rest)%nat →
  small (to_number x) = false.
Proof.
  revert c j. induction rest as [|n rest IH]; intros c j Hx Hj.
  - cbn [length] in Hj. lia.
  - cbn [scan_from] in Hx. destruct (small (to_number c)) eqn:Hs.
    + destruct j as [|j].
      * injection Hx as <-. reflexivity.
      * cbn in Hx. apply (IH _ j Hx). cbn [length] in Hj. lia.
    + destruct j as [|j].
      * injection Hx as <-. exact Hs.
      * cbn in Hx. apply (IH _ j Hx). cbn [length] in Hj. lia.
Qed.

(** ** Rounding up to a multiple of ten *)

Lemma round_up_10_bounds (v : Q) :
  v <= inject_Z (round_up_10 v) ∧ inject_Z (round_up_10 v) < v + 10.
Proof.
  unfold round_up_10. rewrite inject_Z_mult.
  pose proof (Qle_ceiling (v / 10)) as Hle.
  pose proof (Qceiling_lt (v / 10)) as Hlt.
  unfold Z.sub in Hlt. rewrite inject_Z_plus in Hlt.
  assert (Hv : v == v / 10 * 10) by (field).
  change (inject_Z (Z.opp 1)) with (-1 # 1) in Hlt.
  change (inject_Z 10) with 10.
  generalize dependent (inject_Z (Qceiling (v / 10))). intros z Hle Hlt.
  generalize dependent (v / 10). intros x Hv Hle Hlt.
  split; lra.
Qed.


Lemma round_up_10_pos (v : Q) : 0 < v → (0 < Qceiling (v / 10))%Z.
Proof.
  intros Hv. pose proof (Qle_ceiling (v / 10)) as Hle.
  assert (H0 : 0 < v / 10).
  { apply Qlt_shift_div_l; lra. }
  assert (H1 : inject_Z 0 < inject_Z (Qceiling (v / 10))).
  { change (inject_Z 0) with 0. lra. }
  rewrite <- Zlt_Qlt in H1. exact H1.
Qed.

Lemma round_cell_pos (c : cell) :
  0 < to_number c →
  round_cell c = Num (inject_Z (round_up_10 (to_number c))).
Proof.
  intros H. unfold round_cell. apply Qltb_spec in H. rewrite H. reflexivity.
Qed.

Lemma round_cell_nonpos (c : cell) : to_number c <= 0 → round_cell c = c.
Proof.
  intros H. unfold round_cell. apply Qltb_false in H. rewrite H. reflexivity.
Qed.

(** ** Step 1: which codes end up in the list *)

Lemma series_sum_raise (cells : list cell) (e : exn) :
  series_sum cells = Raise e → e = TypeError.
Proof.
  induction cells as [|[v| |s] cells IH]; cbn [series_sum]; intros H.
  - discriminate.
  - destruct (series_sum cells); cbn in H; [discriminate|].
    injection H as <-. apply IH. reflexivity.
  - apply IH, H.
  - congruence.
Qed.

Lemma series_sum_text (cells : list cell) (s : string) :
  Text s ∈ cells → series_sum cells = Raise TypeError.
Proof.
  induction cells as [|c cells IH]; intros Hin.
  - inversion Hin.
  - destruct c as [v| |s']; cbn [series_sum].
    + apply elem_of_cons in Hin as [Heq | Hin]; [discriminate|].
      rewrite (IH Hin). reflexivity.
    + apply elem_of_cons in Hin as [Heq | Hin]; [discriminate|].
      apply IH, Hin.
    + reflexivity.
Qed.

Lemma check_row_raise (d : gmap string Q) (acc : list string) (r : DemandRow) (e : exn) :
  check_row d acc r = Raise e → e = TypeError.
Proof.
  unfold check_row. destruct (d !! py_str (item_id r)) as [q|]; [|discriminate].
  destruct (series_sum (periods r)) as [tot|e'] eqn:Hsum; cbn.
  - destruct (Qltb q tot); discriminate.
  - intros [= <-]. eapply series_sum_raise, Hsum.
Qed.

Lemma check_rows_raise (d : gmap string Q) (acc : list string) (df : DemandTable) (e : exn) :
  check_rows d acc df = Raise e → e = TypeError.
Proof.
  revert acc. induction df as [|r df IH]; intros acc; cbn [check_rows].
  - discriminate.
  - destruct (check_row d acc r) as [keep|e'] eqn:Hr; cbn.
    + apply IH.
    + intros [= <-]. eapply check_row_raise, Hr.
Qed.

Lemma check_row_Ok (d : gmap string Q) (acc keep : list string) (r : DemandRow) :
  check_row d acc r = Ok keep →
  ∀ s, s ∈ keep ↔ s ∈ acc ∨ (py_str (item_id r) = s ∧ exceeds_supply d r).
Proof.
  unfold check_row, exceeds_supply. intros H s.
  destruct (d !! py_str (item_id r)) as [q|] eqn:Hd.
  - destruct (series_sum (periods r)) as [tot|e] eqn:Hsum; cbn in H; [|discriminate].
    destruct (Qltb q tot) eqn:Hlt; injection H as <-.
    + apply Qltb_spec in Hlt. rewrite elem_of_app, list_elem_of_singleton.
      split.
      * intros [Hs | ->]; [left; assumption|].
        right. split; [reflexivity|]. exists q, tot. auto.
      * intros [Hs | [Hs _]]; [left; assumption | right; symmetry; assumption].
    + apply Qltb_false in Hlt. split; [intros Hs; left; assumption|].
      intros [Hs | [_ (q' & tot' & Hq & Ht & Hgt)]]; [assumption|].
      exfalso. injection Hq as <-. injection Ht as <-. lra.
  - injection H as <-. split; [intros Hs; left; assumption|].
    intros [Hs | [_ (q' & tot' & Hq & _)]]; [assumption | discriminate].
Qed.

Lemma check_rows_Ok (d : gmap string Q) (acc keep : list string) (df : DemandTable) :
  check_rows d acc df = Ok keep →
  ∀ s, s ∈ keep ↔ s ∈ acc ∨ item_over_supply d df s.
Proof.
  revert acc. induction df as [|r df IH]; intros acc H s; cbn [check_rows] in H.
  - injection H as <-. split; [intros Hs; left; assumption|].
    intros [Hs | (r & Hr & _)]; [assumption | inversion Hr].
  - destruct (check_row d acc r) as [keep1|e] eqn:Hr; cbn in H; [|discriminate].
    rewrite (IH _ H s), (check_row_Ok _ _ _ _ Hr s). unfold item_over_supply.
    split.
    + intros [[Hs | [Hs Hex]] | (r' & Hin & Hs & Hex)].
      * left; assumption.
      * right. exists r. split; [left | auto].
      * right. exists r'. split; [right; assumption | auto].
    + intros [Hs | (r' & Hin & Hs & Hex)]; [left; left; assumption|].
      apply elem_of_cons in Hin as [-> | Hin].
      * left; right; auto.
      * right. exists r'. auto.
Qed.

(** A text cell in a row whose code has a supply entry stops Step 1. *)
Lemma check_rows_text (d : gmap string Q) (acc : list string) (df : DemandTable)
    (r : DemandRow) (s : string) :
  r ∈ df → is_Some (d !! py_str (item_id r)) → Text s ∈ periods r →
  check_rows d acc df = Raise TypeError.
Proof.
  intros Hin [q Hq] Htext. revert acc.
  induction df as [|r0 df IH]; intros acc; [inversion Hin|].
  cbn [check_rows]. destruct (check_row d acc r0) as [keep|e] eqn:Hr0; cbn.
  - apply elem_of_cons in Hin as [<- | Hin]; [|apply IH, Hin].
    unfold check_row in Hr0. rewrite Hq in Hr0.
    rewrite (series_sum_text _ _ Htext) in Hr0. discriminate.
  - f_equal. eapply check_row_raise, Hr0.
Qed.

(** ** The passes over the table *)

Lemma kept_set_periods (keep : list string) (r : DemandRow) (ps : list cell) :
  kept keep (set_periods r ps) = kept keep r.
Proof. reflexivity. Qed.

Lemma passes_map (keep : list string) (df : DemandTable) :
  step4 keep df (step3 keep (step2 keep df))
  = map (fun r => if kept keep r then r else normalize_row r) df.
Proof.
  unfold step4, step3, step2.
  induction df as [|r df IH]; [reflexivity|].
  cbn [map zip_with]. rewrite IH. f_equal. cbn beta.
  destruct (kept keep r) eqn:Hk;
    repeat (rewrite ?kept_set_periods, ?Hk; cbn beta iota); reflexivity.
Qed.

Lemma normalize_Ok (d : gmap string Q) (df out : DemandTable) :
  normalize d df = Ok out ↔
  d ≠ ∅ ∧ ∃ keep, check_rows d [] df = Ok keep ∧
    out = map (fun r => if kept keep r then r else normalize_row r) df.
Proof.
  unfold normalize, step1. destruct (decide (d = ∅)) as [He|He]; cbn.
  - split; [discriminate | intros [Hne _]; contradiction].
  - destruct (check_rows d [] df) as [keep|e]; cbn.
    + rewrite passes_map. split.
      * intros [= <-]. split; [assumption|]. exists keep. auto.
      * intros [_ (keep' & [= <-] & ->)]. reflexivity.
    + split; [discriminate | intros [_ (keep' & Hk & _)]; discriminate].
Qed.

Lemma kept_over_supply (d : gmap string Q) (df : DemandTable) (keep : list string)
    (r : DemandRow) :
  check_rows d [] df = Ok keep →
  kept keep r = true ↔ item_over_supply d df (py_str (item_id r)).
Proof.
  intros H. unfold kept. rewrite bool_decide_eq_true, (check_rows_Ok _ _ _ _ H).
  split; [intros [Hnil | Hover]; [inversion Hnil | assumption] | auto].
Qed.

Lemma lookup_map {A B : Type} (f : A → B) (l : list A) (i : nat) :
  map f l !! i = f <$> l !! i.
Proof.
  revert i. induction l as [|a l IH]; intros [|i]; cbn; auto.
Qed.

(** Row by row description of a successful run. *)
Lemma normalize_rows (d : gmap string Q) (df out : DemandTable) :
  normalize d df = Ok out →
  length out = length df ∧
  ∀ i r, df !! i = Some r →
    (item_over_supply d df (py_str (item_id r)) → out !! i = Some r) ∧
    (¬ item_over_supply d df (py_str (item_id r)) →
       out !! i = Some (normalize_row r)).
Proof.
  intros H. apply normalize_Ok in H as (_ & keep & Hkeep & ->).
  split; [apply length_map|].
  intros i r Hi. rewrite lookup_map, Hi. cbn.
  pose proof (kept_over_supply d df keep r Hkeep) as Hk.
  destruct (kept keep r); split; intros Hover; try reflexivity.
  - exfalso. apply Hover, Hk. reflexivity.
  - apply Hk in Hover. discriminate.
Qed.

(** Shape of a row after Steps 2 and 3. *)
Lemma normalize_row_shape (row : list cell) (j : nat) (c : cell) :
  round_row (consolidate_row row) !! j = Some c →
  0 < to_number c →
  (∃ k : Z, (0 < k)%Z ∧ c = Num (inject_Z (10 * k))) ∧
  ((S j < length row)%nat → 30 <= to_number c).
Proof.
  unfold round_row. rewrite lookup_map. intros Hc Hpos.
  destruct (consolidate_row row !! j) as [x|] eqn:Hx; [|discriminate].
  injection Hc as <-.
  destruct (Qlt_le_dec 0 (to_number x)) as [Hv|Hv].
  2:{ rewrite (round_cell_nonpos _ Hv) in Hpos. lra. }
  rewrite (round_cell_pos _ Hv). split.
  - exists (Qceiling (to_number x / 10)). split.
    + apply round_up_10_pos, Hv.
    + unfold round_up_10. rewrite Z.mul_comm. reflexivity.
  - intros Hj. cbn [to_number].
    destruct row as [|c0 rest]; [cbn [length] in Hj; lia|].
    rewrite consolidate_row_scan in Hx.
    assert (Hns : small (to_number x) = false).
    { apply (scan_from_not_small _ _ _ _ Hx). cbn [length] in Hj. lia. }
    apply small_false in Hns.
    pose proof (round_up_10_bounds (to_number x)) as [Hle _].
    destruct Hns; lra.
Qed.

(** When the dictionary is not empty and no row that is looked up holds
    text, the run produces a table. *)
Lemma series_sum_no_text (cells : list cell) :
  (∀ s, Text s ∉ cells) → ∃ total, series_sum cells = Ok total.
Proof.
  induction cells as [|c cells IH]; intros H.
  - exists 0. reflexivity.
  - destruct IH as [total Ht].
    { intros s Hs. apply (H s). right. exact Hs. }
    destruct c as [v| |s]; cbn [series_sum].
    + rewrite Ht. exists (v + total). reflexivity.
    + exists total. exact Ht.
    + exfalso. apply (H s). left.
Qed.

Lemma check_rows_no_text (d : gmap string Q) (acc : list string) (df : DemandTable) :
  (∀ r, r ∈ df → is_Some (d !! py_str (item_id r)) → ∀ s, Text s ∉ periods r) →
  ∃ keep, check_rows d acc df = Ok keep.
Proof.
  revert acc. induction df as [|r df IH]; intros acc H.
  - exists acc. reflexivity.
  - cbn [check_rows].
    assert (Hr : ∃ keep1, check_row d acc r = Ok keep1).
    { unfold check_row. destruct (d !! py_str (item_id r)) as [q|] eqn:Hq.
      - destruct (series_sum_no_text (periods r)) as [total Ht].
        { apply (H r); [left | rewrite Hq; eauto]. }
        rewrite Ht. cbn. destruct (Qltb q total); eauto.
      - eauto. }
    destruct Hr as [keep1 ->]. cbn. apply IH.
    intros r' Hin. apply H. right. exact Hin.
Qed.

Lemma normalize_no_text (d : gmap string Q) (df : DemandTable) :
  d ≠ ∅ →
  (∀ r, r ∈ df → is_Some (d !! py_str (item_id r)) → ∀ s, Text s ∉ periods r) →
  ∃ out, normalize d df = Ok out.
Proof.
  intros Hne H. destruct (check_rows_no_text d [] df H) as [keep Hk].
  eexists. apply normalize_Ok. split; [assumption|]. exists keep. auto.
Qed.

(** ** Behaviour of the script *)

(** C1 (what the code does): with an empty supply dictionary the run does
    not complete. [items_to_keep_original] is never assigned, the read that
    follows Step 1 raises [UnboundLocalError], and [process_demand_sheet] returns
    [None] instead of a normalized table, whether the DATA sheet is absent
    or lacks one of its two required columns. *)
Theorem empty_supply_index_aborts (df : DemandTable)
    (codes : option (list item_code)) (qty : option (list (option Q))) :
  normalize ∅ df = Raise UnboundLocalError ∧
  process_demand_sheet (mkBook (Some df) None) = None ∧
  process_demand_sheet (mkBook (Some df) (Some (mkData None qty))) = None ∧
  process_demand_sheet (mkBook (Some df) (Some (mkData codes None))) = None.
Proof.
  assert (H : normalize ∅ df = Raise UnboundLocalError).
  { unfold normalize, step1. rewrite decide_True by reflexivity. reflexivity. }
  repeat split; try exact H;
    unfold process_demand_sheet;
    cbn [demand_sheet data_sheet Material Still_to_be_delivered
         build_material_qty_dict];
    try destruct codes; rewrite H; reflexivity.
Qed.


(** C3 (amended): the row with periods [5, 0, 40] and no supply entry, in a
    run whose supply dictionary is not empty, comes out as [0, 0, 50]:
    the 5 moved into the second column is moved again into the third
    ([0, 0, 45] after consolidation), which rounding turns into 50. *)
Theorem scenario1_cascades (d : gmap string Q) (code : item_code) (lbl : cell) :
  d ≠ ∅ → d !! py_str code = None →
  consolidate_row [Num 5; Num 0; Num 40] = [Num 0; Num 0; Num 45] ∧
  normalize d [mkRow code lbl [Num 5; Num 0; Num 40]]
  = Ok [mkRow code lbl [Num 0; Num 0; Num 50]].
Proof.
  intros Hne Hd. split; [reflexivity|].
  apply normalize_Ok. split; [assumption|]. exists [].
  split.
  - cbn [check_rows]. unfold check_row. cbn [item_id]. rewrite Hd. reflexivity.
  - cbn [map]. unfold kept.
    rewrite bool_decide_eq_false_2 by apply not_elem_of_nil.
    reflexivity.
Qed.



(** C9 (what the code does): a text cell among the periods of a row whose
    item code has a supply entry is not coerced to 0 by the raw-total step;
    the sum raises [TypeError] and the run stops without a table. *)
Theorem text_cell_aborts (d : gmap string Q) (df : DemandTable)
    (r : DemandRow) (s : string) :
  r ∈ df → is_Some (d !! py_str (item_id r)) → Text s ∈ periods r →
  normalize d df = Raise TypeError.
Proof.
  intros Hin Hd Hs. unfold normalize, step1.
  destruct (decide (d = ∅)) as [->|Hne].
  - destruct Hd as [q Hq]. rewrite lookup_empty in Hq. discriminate.
  - rewrite (check_rows_text d [] df r s Hin Hd Hs). reflexivity.
Qed.

(** C10: in a run that produces a table, every positive period value of a
    row that was not preserved is a positive multiple of 10, and left of
    the last period column it is at least 30. *)
Theorem normalized_output_shape (d : gmap string Q) (df out : DemandTable)
    (i j : nat) (r r' : DemandRow) (c : cell) :
  normalize d df = Ok out →
  df !! i = Some r →
  ¬ item_over_supply d df (py_str (item_id r)) →
  out !! i = Some r' →
  periods r' !! j = Some c →
  0 < to_number c →
  (∃ k : Z, (0 < k)%Z ∧ c = Num (inject_Z (10 * k))) ∧
  ((S j < length (periods r'))%nat → 30 <= to_number c).
Proof.
  intros Hrun Hi Hnot Ho Hc Hpos.
  destruct (normalize_rows _ _ _ Hrun) as [_ H].
  destruct (H i r Hi) as [_ Hnorm]. rewrite (Hnorm Hnot) in Ho.
  injection Ho as <-. cbn [normalize_row set_periods periods] in *.
  assert (Hlen : length (round_row (consolidate_row (periods r)))
                 = length (periods r)).
  { unfold round_row. rewrite length_map. apply consolidate_row_length. }
  rewrite Hlen. apply normalize_row_shape; assumption.
Qed.

(** ** Further properties of the passes *)

Lemma scan_from_fixed (c : cell) (rest : list cell) :
  scan_from c rest = c :: rest ↔
  ∀ j x, (c :: rest) !! j = Some x → (j < length rest)%nat →
         small (to_number x) = false.
Proof.
  revert c. induction rest as [|n rest IH]; intros c.
  - split; [intros _ j x _ Hj; cbn [length] in Hj; lia | reflexivity].
  - cbn [scan_from]. destruct (small (to_number c)) eqn:Hs.
    + split.
      * intros Heq. injection Heq as Hc _. subst c. cbn in Hs. discriminate.
      * intros H. specialize (H 0%nat c eq_refl). rewrite Hs in H.
        cbn [length] in H. discriminate H. lia.
    + split.
      * intros Heq. injection Heq as Heq.
        pose proof (proj1 (IH n) Heq) as Hn. clear Heq. rename Hn into Heq.
        intros [|j] x Hx Hj.
        -- injection Hx as <-. exact Hs.
        -- cbn in Hx. apply (Heq j x Hx). cbn [length] in Hj. lia.
      * intros H. f_equal. apply (proj2 (IH n)). intros j x Hx Hj.
        apply (H (S j) x Hx). cbn [length]. lia.
Qed.

Lemma consolidate_row_fixed (row : list cell) :
  consolidate_row row = row ↔
  ∀ j x, row !! j = Some x → (S j < length row)%nat →
         small (to_number x) = false.
Proof.
  destruct row as [|c rest].
  - split; [intros _ j x Hx; discriminate | reflexivity].
  - rewrite consolidate_row_scan, scan_from_fixed. cbn [length].
    split; intros H j x Hx Hj; apply (H j x Hx); lia.
Qed.

Lemma consolidate_row_idem (row : list cell) :
  consolidate_row (consolidate_row row) = consolidate_row row.
Proof.
  apply consolidate_row_fixed. intros j x Hx Hj.
  rewrite consolidate_row_length in Hj.
  destruct row as [|c rest]; [cbn [length] in Hj; lia|].
  rewrite consolidate_row_scan in Hx.
  apply (scan_from_not_small _ _ _ _ Hx). cbn [length] in Hj. lia.
Qed.

(** X1: a run that produces a table keeps the shape of the DEMAND sheet:
    same rows in the same order, each with its item code, its label and
    its number of period cells. *)
Theorem run_keeps_shape (d : gmap string Q) (df out : DemandTable) :
  normalize d df = Ok out →
  Forall2 (fun r r' => item_id r' = item_id r ∧ label r' = label r ∧
                       length (periods r') = length (periods r)) df out.
Proof.
  intros H. apply normalize_Ok in H as (_ & keep & _ & ->).
  induction df as [|r df IH]; cbn [map]; constructor; [|exact IH].
  destruct (kept keep r); [auto|].
  cbn [normalize_row set_periods item_id label periods]. repeat split.
  unfold round_row. rewrite length_map. apply consolidate_row_length.
Qed.

(** X2: the consolidation pass returns a row unchanged exactly when no cell
    left of the last column holds a value strictly between 0 and 30; its
    result always is such a row, so a second pass changes nothing. *)
Theorem consolidation_fixed_point (row : list cell) :
  (consolidate_row row = row ↔
   ∀ j x, row !! j = Some x → (S j < length row)%nat →
          small (to_number x) = false) ∧
  consolidate_row (consolidate_row row) = consolidate_row row.
Proof.
  split; [apply consolidate_row_fixed | apply consolidate_row_idem].
Qed.








(** Rows that Step 1 looks up hold no text when the run succeeds. *)
Lemma check_rows_Ok_no_text (d : gmap string Q) (keep : list string)
    (df : DemandTable) (r : DemandRow) (s : string) :
  check_rows d [] df = Ok keep →
  r ∈ df → is_Some (d !! py_str (item_id r)) → Text s ∉ periods r.
Proof.
  intros Hk Hin Hd Hs.
  rewrite (check_rows_text d [] df r s Hin Hd Hs) in Hk. discriminate.
Qed.



(** ** Row order *)

Lemma item_over_supply_perm (d : gmap string Q) (df df' : DemandTable) (s : string) :
  df ≡ₚ df' → item_over_supply d df s → item_over_supply d df' s.
Proof.
  intros Hp (r & Hin & Hs & Hex). exists r. split; [|auto].
  rewrite <- Hp. exact Hin.
Qed.

(** X14: the result does not depend on the order of the rows: if a run
    produces a table, the run on the same rows in any other order produces
    the table obtained by treating each row in the same way. *)
Theorem normalize_row_order (d : gmap string Q) (df df' out : DemandTable) :
  df ≡ₚ df' →
  normalize d df = Ok out →
  ∃ keep, check_rows d [] df = Ok keep ∧
    out = map (fun r => if kept keep r then r else normalize_row r) df ∧
    normalize d df'
    = Ok (map (fun r => if kept keep r then r else normalize_row r) df').
Proof.
  intros Hp H. apply normalize_Ok in H as (Hne & keep & Hk & ->).
  exists keep. split; [exact Hk|]. split; [reflexivity|].
  destruct (check_rows_no_text d [] df') as [keep' Hk'].
  { intros r Hin Hd s. rewrite <- Hp in Hin.
    apply (check_rows_Ok_no_text d keep df r s Hk Hin Hd). }
  apply normalize_Ok. split; [exact Hne|]. exists keep'. split; [exact Hk'|].
  apply map_ext. intros r.
  assert (Hsame : kept keep r = kept keep' r); [|rewrite Hsame; reflexivity].
  pose proof (kept_over_supply d df keep r Hk) as H1.
  pose proof (kept_over_supply d df' keep' r Hk') as H2.
  destruct (kept keep r), (kept keep' r); try reflexivity.
  - symmetry. apply H2.
    apply item_over_supply_perm with (df := df); [exact Hp|].
    apply H1. reflexivity.
  - apply H1.
    apply item_over_supply_perm with (df := df'); [symmetry; exact Hp|].
    apply H2. reflexivity.
Qed.

(** ** Steps 2 and 3 in binary64: the passes *)


















End Normalizer.

(** ** The supply dictionary *)

Lemma groupby_fold_keys (records : list (string * option Q))
    (d : gmap string Q) (k : string) :
  foldl (fun d rec =>
           <[rec.1 := default 0 (d !! rec.1) + default 0 rec.2]> d)
        d records !! k = None ↔
  d !! k = None ∧ k ∉ records.*1.
Proof.
  revert d. induction records as [|rec records IH]; intros d.
  - cbn [foldl fmap list_fmap].
    split; [intros H; split; [exact H | apply not_elem_of_nil] | tauto].
  - cbn [foldl]. rewrite fmap_cons, IH, not_elem_of_cons.
    destruct (decide (rec.1 = k)) as [Heq|Hne].
    + rewrite Heq, lookup_insert_eq. split.
      * intros [H _]. discriminate.
      * intros [_ [H _]]. contradiction.
    + rewrite lookup_insert_ne by exact Hne. split.
      * intros [H1 H2]. split; [exact H1|]. split; [congruence | exact H2].
      * intros [H1 [_ H2]]. auto.
Qed.

Lemma groupby_sum_nil (records : list (string * option Q)) :
  groupby_sum records = ∅ ↔ records = [].
Proof.
  split; [|intros ->; reflexivity].
  intros H. destruct records as [|rec records]; [reflexivity|]. exfalso.
  pose proof (groupby_fold_keys (rec :: records) ∅ rec.1) as Hn.
  fold (groupby_sum (rec :: records)) in Hn.
  rewrite H, lookup_empty in Hn.
  destruct (proj1 Hn eq_refl) as [_ Hnot]. apply Hnot.
  rewrite fmap_cons. left.
Qed.

(** X7: for a DATA sheet without a missing Material cell, the supply
    dictionary is empty exactly when the sheet is absent, lacks one of its
    two columns, or has no row. (A missing Material cell is kept as the key
    ["nan"] or dropped, depending on the pandas version.) *)
Theorem supply_dict_empty_iff (data : option DataSheet) :
  (∀ df_data codes, data = Some df_data → Material df_data = Some codes →
                    CodeNaN ∉ codes) →
  build_material_qty_dict data = ∅ ↔
  match data with
  | None => True
  | Some df_data =>
      match Material df_data, Still_to_be_delivered df_data with
      | Some codes, Some qty => codes = [] ∨ qty = []
      | _, _ => True
      end
  end.
Proof.
  intros _.
  destruct data as [[[codes|] [qty|]]|]; cbn; try tauto.
  rewrite groupby_sum_nil.
  destruct codes as [|c codes], qty as [|q qty]; cbn; split; auto;
    try discriminate.
  intros [H | H]; discriminate.
Qed.

(** ** Locating the sheets *)

(** X8: the search keeps, for each of the two sheets, the last sheet name
    that equals ["demand"] (respectively ["data"]) once lowered, and finds
    no DEMAND sheet exactly when no name does. *)
Theorem find_sheets_last (sheet_names : list string) :
  find_sheets sheet_names
  = (last (filter (fun n => lower n = "demand"%string) sheet_names),
     last (filter (fun n => lower n = "data"%string) sheet_names)) ∧
  ((find_sheets sheet_names).1 = None ↔
   Forall (fun n => lower n ≠ "demand"%string) sheet_names).
Proof.
  assert (Hlast : find_sheets sheet_names
    = (last (filter (fun n => lower n = "demand"%string) sheet_names),
       last (filter (fun n => lower n = "data"%string) sheet_names))).
  { induction sheet_names as [|n names IH] using rev_ind; [reflexivity|].
    unfold find_sheets in *. rewrite foldl_app. cbn [foldl]. rewrite IH.
    unfold find_sheet_step. rewrite !filter_app, !filter_cons, !filter_nil.
    cbn [fst snd].
    destruct (decide (lower n = "demand"%string)) as [Hd|Hd].
    - rewrite decide_False by (rewrite Hd; discriminate).
      rewrite last_snoc, app_nil_r. reflexivity.
    - destruct (decide (lower n = "data"%string)) as [Ht|Ht].
      + rewrite last_snoc, app_nil_r. reflexivity.
      + rewrite !app_nil_r. reflexivity. }
  split; [exact Hlast|].
  rewrite Hlast. clear Hlast. cbn [fst]. rewrite last_None.
  split.
  - intros Hnil. apply Forall_forall. intros n Hin Hn.
    assert (Hf : n ∈ filter (fun n => lower n = "demand"%string) sheet_names)
      by (apply list_elem_of_filter; auto).
    rewrite Hnil in Hf. inversion Hf.
  - intros Hall. induction Hall as [|n names Hn _ IH]; [reflexivity|].
    rewrite filter_cons, decide_False by exact Hn. exact IH.
Qed.

(** ** File names *)

Lemma rfind_range (P : ascii → bool) (p : list ascii) :
  (-1 <= rfind P p < Z.of_nat (length p))%Z.
Proof.
  induction p as [|c p IH]; cbn [rfind length]; [lia|].
  destruct (0 <=? rfind P p)%Z eqn:H0; [apply Z.leb_le in H0; lia|].
  destruct (P c); lia.
Qed.

Lemma rfind_lookup (P : ascii → bool) (p : list ascii) :
  (0 <= rfind P p)%Z →
  ∃ c, p !! Z.to_nat (rfind P p) = Some c ∧ P c = true.
Proof.
  induction p as [|c p IH]; cbn [rfind]; [lia|].
  destruct (0 <=? rfind P p)%Z eqn:H0.
  - apply Z.leb_le in H0. intros _. destruct (IH H0) as (x & Hx & HP).
    exists x. split; [|exact HP].
    replace (Z.to_nat (1 + rfind P p)) with (S (Z.to_nat (rfind P p))) by lia.
    exact Hx.
  - destruct (P c) eqn:HP; [|lia]. intros _. exists c. auto.
Qed.

Lemma rfind_none (P : ascii → bool) (p : list ascii) :
  Forall (fun c => P c = false) p → rfind P p = (-1)%Z.
Proof.
  induction 1 as [|c p Hc _ IH]; cbn [rfind]; [reflexivity|].
  rewrite IH, Hc. reflexivity.
Qed.

Lemma rfind_app (P : ascii → bool) (p q : list ascii) :
  rfind P (p ++ q)
  = if (0 <=? rfind P q)%Z then (Z.of_nat (length p) + rfind P q)%Z
    else rfind P p.
Proof.
  induction p as [|c p IH]; cbn [app rfind length].
  - destruct (0 <=? rfind P q)%Z eqn:H0; [lia|].
    apply Z.leb_gt in H0. pose proof (rfind_range P q). lia.
  - rewrite IH. destruct (0 <=? rfind P q)%Z eqn:H0.
    + apply Z.leb_le in H0.
      replace (0 <=? Z.of_nat (length p) + rfind P q)%Z with true
        by (symmetry; apply Z.leb_le; lia).
      lia.
    + reflexivity.
Qed.

Lemma splitext_join (windows : bool) (p : list ascii) :
  (splitext windows p).1 ++ (splitext windows p).2 = p.
Proof.
  unfold splitext.
  destruct (rfind (is_sep windows) p <? rfind is_dot p)%Z;
    [|apply app_nil_r].
  destruct (existsb _ _); [apply take_drop | apply app_nil_r].
Qed.

(** The extension returned by [splitext] is empty or starts with a dot. *)
Lemma splitext_ext (windows : bool) (p : list ascii) :
  (splitext windows p).2 = [] ∨
  ∃ e, (splitext windows p).2 = "."%char :: e.
Proof.
  unfold splitext.
  destruct (rfind (is_sep windows) p <? rfind is_dot p)%Z eqn:Hlt;
    [|left; reflexivity].
  destruct (existsb _ _); [|left; reflexivity].
  right. cbn [snd]. apply Z.ltb_lt in Hlt.
  pose proof (rfind_range (is_sep windows) p) as Hs.
  destruct (rfind_lookup is_dot p) as (c & Hc & Hdot); [lia|].
  apply Ascii.eqb_eq in Hdot. subst c.
  rewrite (drop_S _ _ _ Hc). eauto.
Qed.

Lemma decimal_chars (windows : bool) (n : nat) :
  Forall (fun c => is_sep windows c = false ∧ is_dot c = false) (decimal n).
Proof.
  unfold decimal.
  assert (H : ∀ d, Forall (fun c => is_sep windows c = false ∧ is_dot c = false)
                     (String.list_ascii_of_string (NilEmpty.string_of_uint d))).
  { induction d; cbn [NilEmpty.string_of_uint String.list_ascii_of_string];
      constructor; try assumption; destruct windows; split; reflexivity. }
  unfold NilZero.string_of_uint.
  destruct (Nat.to_uint n); try apply H.
  cbn. constructor; [destruct windows; split; reflexivity | constructor].
Qed.

(** A name that ends in a dot-free, separator-free stem followed by a
    dot-free extension is split at that dot. *)
Lemma splitext_stem (windows : bool) (r b e : list ascii) :
  b ≠ [] →
  Forall (fun c => is_sep windows c = false ∧ is_dot c = false) b →
  Forall (fun c => is_sep windows c = false ∧ is_dot c = false) e →
  splitext windows (r ++ b ++ "."%char :: e) = (r ++ b, "."%char :: e).
Proof.
  intros Hb Hfb Hfe.
  assert (Hsep : rfind (is_sep windows) (r ++ b ++ "."%char :: e)
                 = rfind (is_sep windows) r).
  { rewrite rfind_app, rfind_none; [reflexivity|].
    apply Forall_app. split; [eapply Forall_impl; [exact Hfb|]; cbn; tauto|].
    constructor; [destruct windows; reflexivity|].
    eapply Forall_impl; [exact Hfe|]; cbn; tauto. }
  assert (Hdot : rfind is_dot (r ++ b ++ "."%char :: e)
                 = Z.of_nat (length (r ++ b))).
  { rewrite app_assoc, rfind_app. cbn [rfind].
    rewrite (rfind_none is_dot e)
      by (eapply Forall_impl; [exact Hfe|]; cbn; tauto).
    cbn. lia. }
  pose proof (rfind_range (is_sep windows) r) as Hr.
  destruct b as [|c0 b]; [contradiction|].
  unfold splitext. rewrite Hsep, Hdot.
  rewrite length_app in *. cbn [length] in *.
  replace (rfind (is_sep windows) r <? Z.of_nat (length r + S (length b)))%Z
    with true by (symmetry; apply Z.ltb_lt; lia).
  set (m := Z.to_nat (rfind (is_sep windows) r + 1)).
  set (k := Z.to_nat (Z.of_nat (length r + S (length b))
                      - (rfind (is_sep windows) r + 1))).
  assert (Hex : existsb (fun c => negb (is_dot c))
                  (take k (drop m (r ++ (c0 :: b) ++ "."%char :: e))) = true).
  { apply existsb_exists. exists c0. split.
    - apply list_elem_of_In. apply (list_elem_of_lookup_2 _ (length r - m)%nat).
      rewrite lookup_take_lt by (subst k m; lia).
      rewrite lookup_drop.
      replace (m + (length r - m))%nat with (length r + 0)%nat
        by (subst m; lia).
      rewrite lookup_app_r by lia.
      replace (length r + 0 - length r)%nat with 0%nat by lia. reflexivity.
    - inversion Hfb as [|? ? [_ Hc0] _]; subst. rewrite Hc0. reflexivity. }
  rewrite Hex. rewrite Nat2Z.id.
  rewrite (app_assoc r (c0 :: b)).
  replace (length r + S (length b))%nat with (length (r ++ c0 :: b))
    by (rewrite length_app; reflexivity).
  rewrite take_app_length, drop_app_length. reflexivity.
Qed.

Lemma decimal_inj (n m : nat) : decimal n = decimal m → n = m.
Proof.
  assert (Hnil : ∀ k, Nat.to_uint k ≠ Decimal.Nil).
  { intros k H. pose proof (DecimalNat.Unsigned.of_to k) as Hk.
    rewrite H in Hk. cbn in Hk. subst k. discriminate H. }
  unfold decimal. intros H.
  apply (f_equal String.string_of_list_ascii) in H.
  rewrite !String.string_of_list_ascii_of_string in H.
  apply (f_equal NilZero.uint_of_string) in H.
  rewrite !NilZero.usu in H by apply Hnil.
  injection H as H. apply DecimalNat.Unsigned.to_uint_inj, H.
Qed.

Lemma output_file_stem (windows : bool) (input_file : list ascii) (n : nat) :
  splitext windows (output_file windows input_file n)
  = ((splitext windows input_file).1
       ++ String.list_ascii_of_string "_output_" ++ decimal n,
     String.list_ascii_of_string ".xlsx").
Proof.
  unfold output_file.
  rewrite (app_assoc (String.list_ascii_of_string "_output_")).
  change (String.list_ascii_of_string ".xlsx")
    with ("."%char :: String.list_ascii_of_string "xlsx").
  rewrite splitext_stem.
  - reflexivity.
  - discriminate.
  - apply Forall_app. split; [|apply decimal_chars].
    cbn. repeat constructor; destruct windows; reflexivity.
  - cbn. repeat constructor; destruct windows; reflexivity.
Qed.

(** X9: whatever the input path and the random number, the output path
    differs from the input path, so the original workbook is not the file
    the script writes. *)
Theorem output_file_not_input (windows : bool) (input_file : list ascii)
    (random_num : nat) :
  output_file windows input_file random_num ≠ input_file.
Proof.
  unfold output_file. intros H.
  rewrite <- (splitext_join windows input_file) in H at 2.
  apply app_inv_head in H.
  destruct (splitext_ext windows input_file) as [He | [e He]];
    rewrite He in H; discriminate H.
Qed.

(** X10: the temporary file is the output path with [.xlsx] replaced by
    [_temp_demand.xlsx]; it is neither the input file nor the output
    file, so writing and deleting it touches neither. *)
Theorem temp_demand_file_fresh (windows : bool) (input_file : list ascii)
    (random_num : nat) :
  let output := output_file windows input_file random_num in
  temp_demand_file windows output
  = (splitext windows input_file).1
      ++ String.list_ascii_of_string "_output_" ++ decimal random_num
      ++ String.list_ascii_of_string "_temp_demand.xlsx" ∧
  temp_demand_file windows output ≠ input_file ∧
  temp_demand_file windows output ≠ output.
Proof.
  cbn zeta.
  assert (Htemp : temp_demand_file windows
                    (output_file windows input_file random_num)
    = (splitext windows input_file).1
        ++ String.list_ascii_of_string "_output_" ++ decimal random_num
        ++ String.list_ascii_of_string "_temp_demand.xlsx").
  { unfold temp_demand_file. rewrite output_file_stem. cbn [fst].
    rewrite <- !app_assoc. reflexivity. }
  split; [exact Htemp|]. rewrite Htemp. split.
  - intros H. rewrite <- (splitext_join windows input_file) in H at 2.
    apply app_inv_head in H.
    destruct (splitext_ext windows input_file) as [He | [e He]];
      rewrite He in H; discriminate H.
  - unfold output_file. intros H.
    apply app_inv_head, app_inv_head, app_inv_head in H. discriminate H.
Qed.

(** X11: for one input path, two random numbers give the same output path
    only when they are equal. *)
Theorem output_file_inj (windows : bool) (input_file : list ascii)
    (n m : nat) :
  output_file windows input_file n = output_file windows input_file m →
  n = m.
Proof.
  unfold output_file. intros H.
  apply app_inv_head, app_inv_head, app_inv_tail in H.
  apply decimal_inj, H.
Qed.

(** ** The sheets of the output workbook *)

Lemma read_excel_middle {A : Type} (pre suf : list (string * A)) (kv : string * A) :
  kv.1 ∉ pre.*1 → read_excel (pre ++ kv :: suf) kv.1 = Some kv.2.
Proof.
  induction pre as [|x pre IH]; cbn [app read_excel]; intros Hnot.
  - rewrite decide_True by reflexivity. reflexivity.
  - rewrite fmap_cons, not_elem_of_cons in Hnot. destruct Hnot as [Hne Hnot].
    rewrite decide_False by congruence. apply IH, Hnot.
Qed.

Lemma dict_set_fresh {A : Type} (k : string) (v : A) (d : list (string * A)) :
  k ∉ d.*1 → dict_set k v d = d ++ [(k, v)].
Proof.
  induction d as [|x d IH]; cbn [dict_set app]; intros Hnot; [reflexivity|].
  rewrite fmap_cons, not_elem_of_cons in Hnot. destruct Hnot as [Hne Hnot].
  rewrite decide_False by congruence. rewrite IH by exact Hnot. reflexivity.
Qed.

Lemma filter_other_names {A : Type} (name : string) (book : list (string * A))
    (k : string) :
  k ∈ (filter (fun kv => kv.1 ≠ name) book).*1 → k ∈ book.*1 ∧ k ≠ name.
Proof.
  intros H. apply list_elem_of_fmap in H as (kv & -> & Hin).
  apply list_elem_of_filter in Hin as [Hne Hin]. split; [|exact Hne].
  apply list_elem_of_fmap. exists kv. auto.
Qed.

Lemma collect_fold {A : Type} (book : list (string * A)) (name : string)
    (pre suf : list (string * A)) :
  book = pre ++ suf → NoDup book.*1 →
  foldl (collect_step book name) (filter (fun kv => kv.1 ≠ name) pre) suf.*1
  = filter (fun kv => kv.1 ≠ name) (pre ++ suf).
Proof.
  revert pre. induction suf as [|kv suf IH]; intros pre Hbook Hnd.
  - rewrite app_nil_r. reflexivity.
  - rewrite fmap_cons. cbn [foldl].
    assert (Hfresh : kv.1 ∉ pre.*1).
    { rewrite Hbook, fmap_app, fmap_cons in Hnd.
      apply NoDup_app in Hnd as (_ & Hdisj & _).
      intros Hin. apply (Hdisj _ Hin). left. }
    specialize (IH (pre ++ [kv])).
    rewrite <- app_assoc in IH. cbn [app] in IH.
    rewrite <- (IH Hbook Hnd). f_equal.
    unfold collect_step. rewrite filter_app, filter_cons, filter_nil.
    destruct (decide (kv.1 = name)) as [Heq|Hne].
    + rewrite decide_False by (intros H; apply H, Heq).
      rewrite app_nil_r. reflexivity.
    + rewrite decide_True by exact Hne.
      rewrite Hbook, (read_excel_middle pre suf kv Hfresh).
      rewrite dict_set_fresh.
      * destruct kv. reflexivity.
      * intros Hin. apply filter_other_names in Hin as [Hin _].
        apply Hfresh, Hin.
Qed.

Lemma remove_sheet_filter {A : Type} (name : string) (book : list (string * A)) :
  NoDup book.*1 →
  remove_sheet name book = filter (fun kv => kv.1 ≠ name) book.
Proof.
  induction book as [|kv book IH]; cbn [remove_sheet]; intros Hnd;
    [reflexivity|].
  rewrite fmap_cons in Hnd. apply NoDup_cons in Hnd as [Hnot Hnd].
  rewrite filter_cons. destruct (decide (kv.1 = name)) as [Heq|Hne].
  - rewrite decide_False by (intros H; apply H, Heq).
    clear IH Hnd. subst name.
    induction book as [|x book IH]; [reflexivity|].
    rewrite fmap_cons, not_elem_of_cons in Hnot. destruct Hnot as [Hne Hnot].
    rewrite filter_cons, decide_True by congruence.
    rewrite <- (IH Hnot). reflexivity.
  - rewrite decide_True by exact Hne. rewrite (IH Hnd). reflexivity.
Qed.

Lemma other_sheets_NoDup {A : Type} (name : string) (book : list (string * A)) :
  NoDup book.*1 → NoDup ((filter (fun kv => kv.1 ≠ name) book).*1 ++ [name]).
Proof.
  intros Hnd. apply NoDup_app. split; [|split].
  - induction book as [|kv book IH]; [constructor|].
    rewrite fmap_cons in Hnd. apply NoDup_cons in Hnd as [Hnot Hnd].
    rewrite filter_cons. destruct (decide (kv.1 ≠ name)); [|apply IH, Hnd].
    rewrite fmap_cons. apply NoDup_cons. split; [|apply IH, Hnd].
    intros Hin. apply filter_other_names in Hin as [Hin _]. apply Hnot, Hin.
  - intros k Hin Hk. apply filter_other_names in Hin as [_ Hne].
    apply list_elem_of_singleton in Hk. contradiction.
  - apply NoDup_singleton.
Qed.

(** X12: when the sheet names of the workbook are distinct, the file the
    script writes holds every sheet other than the DEMAND sheet, in the
    original order and with the DataFrame read from the input, followed by
    the processed DEMAND sheet as the last sheet. If the DEMAND sheet is a
    sheet of the workbook, the output has the same sheet names up to
    order. *)
Theorem rewrite_workbook_sheets {A : Type} (book : list (string * A))
    (demand_sheet_name : string) (demand_df : A) :
  NoDup book.*1 →
  rewrite_workbook book demand_sheet_name demand_df
  = filter (fun kv => kv.1 ≠ demand_sheet_name) book
      ++ [(demand_sheet_name, demand_df)] ∧
  (demand_sheet_name ∈ book.*1 →
   (rewrite_workbook book demand_sheet_name demand_df).*1 ≡ₚ book.*1).
Proof.
  intros Hnd.
  assert (Heq : rewrite_workbook book demand_sheet_name demand_df
    = filter (fun kv => kv.1 ≠ demand_sheet_name) book
        ++ [(demand_sheet_name, demand_df)]).
  { unfold rewrite_workbook.
    pose proof (collect_fold book demand_sheet_name [] book eq_refl Hnd) as Hc.
    rewrite filter_nil in Hc. cbn [app] in Hc. rewrite Hc.
    apply dict_set_fresh.
    intros Hin. apply filter_other_names in Hin as [_ Hne]. apply Hne.
    reflexivity. }
  split; [exact Heq|]. intros Hdemand. rewrite Heq, fmap_app. cbn [fmap list_fmap fst].
  apply NoDup_Permutation; [apply other_sheets_NoDup, Hnd | exact Hnd |].
  intros k. rewrite elem_of_app, list_elem_of_singleton. split.
  - intros [Hin | ->]; [|exact Hdemand].
    apply filter_other_names in Hin as [Hin _]. exact Hin.
  - intros Hin. destruct (decide (k = demand_sheet_name)) as [->|Hne];
      [right; reflexivity | left].
    apply list_elem_of_fmap in Hin as (kv & -> & Hin).
    apply list_elem_of_fmap. exists kv. split; [reflexivity|].
    apply list_elem_of_filter. auto.
Qed.

(** X13: when the sheet names are distinct, the fallback (delete the DEMAND
    sheet from the copy, append the processed one) leaves the same sheets
    in the same order as the first strategy. *)
Theorem append_workbook_same {A : Type} (book : list (string * A))
    (demand_sheet_name : string) (demand_df : A) :
  NoDup book.*1 →
  append_workbook book demand_sheet_name demand_df
  = rewrite_workbook book demand_sheet_name demand_df.
Proof.
  intros Hnd. unfold append_workbook, rewrite_workbook.
  pose proof (collect_fold book demand_sheet_name [] book eq_refl Hnd) as Hc.
  rewrite filter_nil in Hc. cbn [app] in Hc. rewrite Hc.
  rewrite (remove_sheet_filter _ _ Hnd). symmetry.
  apply dict_set_fresh.
  intros Hin. apply filter_other_names in Hin as [_ Hne]. apply Hne.
  reflexivity.
Qed.

(** ** The statements at concrete workbooks *)

Lemma singleton_dict_nonempty (k : string) (q : Q) :
  ({[ k := q ]} : gmap string Q) ≠ ∅.
Proof. apply insert_non_empty. Qed.



(** C3, the scenario as written: the output is not [0, 10, 40], and the
    consolidation pass does not stop at [0, 5, 40]. *)
Lemma scenario1_counterexample :
  consolidate_row float_decimal (periods scenario1_row)
    ≠ [Num 0; Num 5; Num 40] ∧
  round_row float_decimal (consolidate_row float_decimal (periods scenario1_row))
    ≠ [Num 0; Num 10; Num 40] ∧
  process_demand_sheet float_decimal
    (mkBook (Some [scenario1_row]) (Some other_item_data))
  = Some [mkRow (CodeStr "A") (Text "bolt") [Num 0; Num 0; Num 50]].
Proof.
  split; [vm_compute; discriminate|].
  split; [vm_compute; discriminate|].
  vm_compute. reflexivity.
Qed.

Lemma scenario1_cascades_witness :
  ({[ "B"%string := 100 ]} : gmap string Q) ≠ ∅ ∧
  ({[ "B"%string := 100 ]} : gmap string Q) !! py_str (CodeStr "A") = None ∧
  consolidate_row float_decimal [Num 5; Num 0; Num 40]
    = [Num 0; Num 0; Num 45] ∧
  normalize float_decimal {[ "B"%string := 100 ]}
    [mkRow (CodeStr "A") (Text "bolt") [Num 5; Num 0; Num 40]]
  = Ok [mkRow (CodeStr "A") (Text "bolt") [Num 0; Num 0; Num 50]].
Proof.
  split; [apply singleton_dict_nonempty|].
  split; [vm_compute; reflexivity|].
  apply (scenario1_cascades float_decimal {[ "B"%string := 100 ]}
           (CodeStr "A") (Text "bolt")).
  - apply singleton_dict_nonempty.
  - vm_compute. reflexivity.
Defined.



Lemma text_cell_aborts_witness :
  text_row ∈ [text_row] ∧
  is_Some (build_material_qty_dict (Some supply_A_50) !! py_str (item_id text_row)) ∧
  Text "abc" ∈ periods text_row ∧
  normalize float_decimal (build_material_qty_dict (Some supply_A_50)) [text_row]
    = Raise TypeError ∧
  process_demand_sheet float_decimal
    (mkBook (Some [text_row]) (Some supply_A_50)) = None.
Proof.
  assert (Hin : text_row ∈ [text_row]) by left.
  assert (Hd : is_Some (build_material_qty_dict (Some supply_A_50)
                          !! py_str (item_id text_row)))
    by (exists 50; vm_compute; reflexivity).
  assert (Hs : Text "abc" ∈ periods text_row) by left.
  split; [exact Hin|]. split; [exact Hd|]. split; [exact Hs|]. split.
  - exact (text_cell_aborts float_decimal _ _ _ _ Hin Hd Hs).
  - vm_compute. reflexivity.
Defined.

Lemma normalized_output_shape_witness :
  normalize float_decimal {[ "B"%string := 100 ]} [mixed_row]
    = Ok [mkRow (CodeInt 1001) NaN [Num 40; Num 0; Num 30]] ∧
  ¬ item_over_supply {[ "B"%string := 100 ]} [mixed_row]
      (py_str (item_id mixed_row)) ∧
  (∃ k : Z, (0 < k)%Z ∧ Num 40 = Num (inject_Z (10 * k))) ∧
  ((1 < 3)%nat → 30 <= 40).
Proof.
  assert (Hrun : normalize float_decimal {[ "B"%string := 100 ]} [mixed_row]
                 = Ok [mkRow (CodeInt 1001) NaN [Num 40; Num 0; Num 30]])
    by (vm_compute; reflexivity).
  assert (Hnot : ¬ item_over_supply {[ "B"%string := 100 ]} [mixed_row]
                     (py_str (item_id mixed_row))).
  { intros (r & Hin & _ & q & tot & Hq & _).
    apply list_elem_of_singleton in Hin. subst r.
    vm_compute in Hq. discriminate. }
  split; [exact Hrun|]. split; [exact Hnot|].
  apply (normalized_output_shape float_decimal {[ "B"%string := 100 ]}
           [mixed_row] [mkRow (CodeInt 1001) NaN [Num 40; Num 0; Num 30]]
           0 0 mixed_row (mkRow (CodeInt 1001) NaN [Num 40; Num 0; Num 30])
           (Num 40) Hrun eq_refl Hnot eq_refl eq_refl).
  reflexivity.
Defined.

(** ** The further properties at concrete inputs *)

Lemma run_keeps_shape_witness :
  normalize float_decimal (build_material_qty_dict (Some supply_A_50))
    scenario3_table = Ok scenario3_output ∧
  Forall2 (fun r r' => item_id r' = item_id r ∧ label r' = label r ∧
                       length (periods r') = length (periods r))
    scenario3_table scenario3_output.
Proof.
  assert (Hrun : normalize float_decimal
                   (build_material_qty_dict (Some supply_A_50))
                   scenario3_table = Ok scenario3_output)
    by (vm_compute; reflexivity).
  split; [exact Hrun|].
  exact (run_keeps_shape float_decimal _ _ _ Hrun).
Defined.


Lemma normalize_row_order_witness :
  scenario3_table ≡ₚ reverse scenario3_table ∧
  normalize float_decimal (build_material_qty_dict (Some supply_A_50))
    scenario3_table = Ok scenario3_output ∧
  ∃ keep,
    check_rows (build_material_qty_dict (Some supply_A_50)) [] scenario3_table
      = Ok keep ∧
    scenario3_output
      = map (fun r => if kept keep r then r else normalize_row float_decimal r)
          scenario3_table ∧
    normalize float_decimal (build_material_qty_dict (Some supply_A_50))
      (reverse scenario3_table)
    = Ok (map (fun r => if kept keep r then r else normalize_row float_decimal r)
            (reverse scenario3_table)).
Proof.
  assert (Hp : scenario3_table ≡ₚ reverse scenario3_table)
    by apply perm_swap.
  assert (Hrun : normalize float_decimal
                   (build_material_qty_dict (Some supply_A_50))
                   scenario3_table = Ok scenario3_output)
    by (vm_compute; reflexivity).
  split; [exact Hp|]. split; [exact Hrun|].
  exact (normalize_row_order float_decimal _ _ _ _ Hp Hrun).
Defined.

Lemma output_file_not_input_witness :
  output_file false (String.list_ascii_of_string "data/SV.xlsx") 1234
    = String.list_ascii_of_string "data/SV_output_1234.xlsx" ∧
  output_file false (String.list_ascii_of_string "data/SV.xlsx") 1234
    ≠ String.list_ascii_of_string "data/SV.xlsx".
Proof.
  split; [vm_compute; reflexivity|].
  exact (output_file_not_input false
           (String.list_ascii_of_string "data/SV.xlsx") 1234).
Defined.

Lemma output_file_inj_witness :
  output_file true (String.list_ascii_of_string "SV.xlsx") 4321
    = output_file true (String.list_ascii_of_string "SV.xlsx") 4321 ∧
  4321%nat = 4321%nat.
Proof.
  split; [reflexivity|].
  exact (output_file_inj true (String.list_ascii_of_string "SV.xlsx")
           4321 4321 eq_refl).
Defined.

Lemma rewrite_workbook_sheets_witness :
  NoDup [("DEMAND"%string, 1%nat); ("Data"%string, 2%nat);
         ("Notes"%string, 3%nat)].*1 ∧
  "DEMAND"%string ∈ [("DEMAND"%string, 1%nat); ("Data"%string, 2%nat);
                     ("Notes"%string, 3%nat)].*1 ∧
  rewrite_workbook [("DEMAND"%string, 1%nat); ("Data"%string, 2%nat);
                    ("Notes"%string, 3%nat)] "DEMAND" 9%nat
  = [("Data"%string, 2%nat); ("Notes"%string, 3%nat); ("DEMAND"%string, 9%nat)] ∧
  (rewrite_workbook [("DEMAND"%string, 1%nat); ("Data"%string, 2%nat);
                     ("Notes"%string, 3%nat)] "DEMAND" 9%nat).*1
  ≡ₚ [("DEMAND"%string, 1%nat); ("Data"%string, 2%nat);
      ("Notes"%string, 3%nat)].*1.
Proof.
  assert (Hnd : NoDup [("DEMAND"%string, 1%nat); ("Data"%string, 2%nat);
                       ("Notes"%string, 3%nat)].*1).
  { apply (bool_decide_unpack _). vm_compute. exact I. }
  assert (Hin : "DEMAND"%string ∈ [("DEMAND"%string, 1%nat);
                  ("Data"%string, 2%nat); ("Notes"%string, 3%nat)].*1)
    by left.
  destruct (rewrite_workbook_sheets
              [("DEMAND"%string, 1%nat); ("Data"%string, 2%nat);
               ("Notes"%string, 3%nat)] "DEMAND" 9%nat Hnd) as [Heq Hperm].
  split; [exact Hnd|]. split; [exact Hin|]. split.
  - rewrite Heq. vm_compute. reflexivity.
  - exact (Hperm Hin).
Defined.

Lemma append_workbook_same_witness :
  NoDup [("DEMAND"%string, 1%nat); ("Data"%string, 2%nat)].*1 ∧
  append_workbook [("DEMAND"%string, 1%nat); ("Data"%string, 2%nat)] "DEMAND" 9%nat
  = rewrite_workbook [("DEMAND"%string, 1%nat); ("Data"%string, 2%nat)]
      "DEMAND" 9%nat.
Proof.
  assert (Hnd : NoDup [("DEMAND"%string, 1%nat); ("Data"%string, 2%nat)].*1).
  { apply (bool_decide_unpack _). vm_compute. exact I. }
  split; [exact Hnd|].
  exact (append_workbook_same _ "DEMAND" 9%nat Hnd).
Defined.

(** ** Steps 2 and 3 in binary64, at concrete rows *)







Lemma supply_dict_empty_iff_witness :
  (∀ df_data codes, Some supply_A_50 = Some df_data →
                    Material df_data = Some codes → CodeNaN ∉ codes) ∧
  (build_material_qty_dict (Some supply_A_50) = ∅ ↔
   [CodeStr "A"] = [] ∨ [Some 50] = []).
Proof.
  assert (H : ∀ df_data codes, Some supply_A_50 = Some df_data →
                Material df_data = Some codes → CodeNaN ∉ codes).
  { intros df_data codes [= <-] [= <-] Hin.
    apply list_elem_of_singleton in Hin. discriminate. }
  split; [exact H|].
  exact (supply_dict_empty_iff (Some supply_A_50) H).
Defined.
